(** * flexi_auth.backends: the parametric role backend

    A shallow embedding of [ParamRoleBackend] (src/flexi_auth/backends.py)
    together with the part of Python's object model that [has_perm] relies on:
    attribute lookup on a model class or a model instance ([getattr]) and the
    call of whatever that lookup returns.

    The object model covers ordinary classes: a class has a body and base
    classes, its members are class methods, instance methods, plain class
    attributes and other non-data descriptors, its instances have own
    attributes.  It gives no meaning to the names Python reserves for its own
    protocols (those that start with two underscores, the attribute-lookup
    hooks among them), and [str.lower()] is a parameter of the backend, with
    the lower-casing of byte strings as the instance the examples run on.

    Layout: Python values and exceptions, the object model, the interpreter
    state and its monad, the backend itself, the wording of the specification,
    sample models, and finally the theorems. *)

From Stdlib Require Import String Ascii List Bool ZArith.
From stdpp Require Import base gmap strings.

Local Open Scope Z_scope.
Local Open Scope string_scope.

(** ** Python values, exceptions, outcomes *)

(** First-order Python data, as found in a context dictionary, in the fields
    of a model instance, or returned by a permission check.  The backend hands
    the return value of a check back untouched, so the verdict is a [Value]
    and not a [bool]. *)
Inductive Value : Type :=
  | VNone
  | VBool (b : bool)
  | VInt (z : Z)
  | VStr (s : string).

Definition value_eqb (v w : Value) : bool :=
  match v, w with
  | VNone, VNone => true
  | VBool a, VBool b => Bool.eqb a b
  | VInt a, VInt b => Z.eqb a b
  | VStr a, VStr b => String.eqb a b
  | _, _ => false
  end.

(** The exceptions that can surface from [has_perm]. *)
Inductive exn : Type :=
  | AttributeError (name : string)   (* getattr found nothing under [name] *)
  | TypeError                        (* a call that cannot be made *)
  | KeyError (key : string)          (* context[key] on a missing key *)
  | OtherError (msg : string).       (* anything else a check may raise *)

Inductive result (A : Type) : Type :=
  | Ok (a : A)
  | Raise (e : exn).
Arguments Ok {A} a.
Arguments Raise {A} e.

(** ** Users, contexts, models *)

(** The part of a Django user that the backend and the checks read.
    [is_anonymous] is the answer of the method call [user_obj.is_anonymous()]. *)
Record User : Type := mkUser {
  user_id : Z;
  is_superuser : bool;
  is_anonymous : bool;
  is_active : bool
}.

(** Context information: a dictionary with string keys. *)
Abbreviation Context := (gmap string Value).

(** The own attributes ([__dict__]) of a model instance: its field values. *)
Abbreviation InstDict := (gmap string Value).

(** What [getattr] can hand back. *)
Inductive pyobj : Type :=
  | BoundMethod (f : User -> Context -> result Value)
  | UnboundMethod (g : InstDict -> User -> Context -> result Value)
  | Plain (v : Value).

(** What a class body can bind a name to.
    - [ClassMethod f]: [@classmethod def name(cls, user, context)]; it
      receives the class (here: its name).
    - [InstanceMethod g]: [def name(self, user, context)], with exactly these
      parameters, as the docstring of the backend asks; it receives the
      instance (here: its own attributes).
    - [ClassData v]: a plain class attribute.
    - [Descriptor get]: any other non-data descriptor, given by its
      [__get__(instance, owner)]; [instance] is [None] when the member is
      fetched through the class.  A function with other parameters than
      [(self, user, context)], a static method, or an object that hands out
      one check through the class and another through an instance, are of
      this kind. *)
Inductive member : Type :=
  | ClassMethod (f : string -> User -> Context -> result Value)
  | InstanceMethod (g : InstDict -> User -> Context -> result Value)
  | ClassData (v : Value)
  | Descriptor (get : option InstDict -> string -> pyobj).

(** A model class: its name, the definitions of its body in textual order (one
    name may be defined several times in a body), and the bodies of the other
    classes of its [__mro__], its base classes in method resolution order. *)
Record PyClass : Type := mkClass {
  cls_name : string;
  cls_body : list (string * member);
  cls_bases : list (list (string * member))
}.

(** Executing a class body binds the names one after the other, so that a
    later definition of a name replaces an earlier one. *)
Definition class_namespace (body : list (string * member)) : gmap string member :=
  fold_left (fun ns d => <[fst d := snd d]> ns) body ∅.

Definition cls_dict (c : PyClass) : gmap string member :=
  class_namespace (cls_body c).

(** The search along an [__mro__]: the first class whose namespace binds the
    name decides. *)
Fixpoint mro_lookup (name : string) (mro : list (list (string * member)))
    : option member :=
  match mro with
  | [] => None
  | body :: rest =>
      match class_namespace body !! name with
      | Some m => Some m
      | None => mro_lookup name rest
      end
  end.

(** The member a class has under a name: its own, else an inherited one. *)
Definition cls_lookup (c : PyClass) (name : string) : option member :=
  mro_lookup name (cls_body c :: cls_bases c).

Record PyInstance : Type := mkInstance {
  inst_class : PyClass;
  inst_dict : InstDict
}.

(** [obj.model_or_instance] is either a model class or a model instance. *)
Inductive ModelOrInstance : Type :=
  | Class (c : PyClass)
  | Instance (i : PyInstance).

(** The argument [obj] of [has_perm]: a model class or instance, packed with a
    context. *)
Record ObjWithContext : Type := mkObj {
  model_or_instance : ModelOrInstance;
  context : Context
}.

(** ** Attribute lookup and calls *)

(** Fetching a member through the class: a class method comes bound to the
    class, a function defined for instances comes without an instance. *)
Definition bind_to_class (c : PyClass) (m : member) : pyobj :=
  match m with
  | ClassMethod f => BoundMethod (f (cls_name c))
  | InstanceMethod g => UnboundMethod g
  | ClassData v => Plain v
  | Descriptor get => get None (cls_name c)
  end.

(** Fetching a member through an instance: a class method still comes bound to
    the class, a function comes bound to the instance. *)
Definition bind_to_instance (i : PyInstance) (m : member) : pyobj :=
  match m with
  | ClassMethod f => BoundMethod (f (cls_name (inst_class i)))
  | InstanceMethod g => BoundMethod (g (inst_dict i))
  | ClassData v => Plain v
  | Descriptor get => get (Some (inst_dict i)) (cls_name (inst_class i))
  end.

(** [getattr(o, name)].  On a class the name is searched in the namespace of
    the class and then of its base classes.  On an instance the own attributes
    come first (the members of a class are not data descriptors), then the
    class and its base classes.  Nothing found: [AttributeError]. *)
Definition py_getattr (o : ModelOrInstance) (name : string) : result pyobj :=
  match o with
  | Class c =>
      match cls_lookup c name with
      | Some m => Ok (bind_to_class c m)
      | None => Raise (AttributeError name)
      end
  | Instance i =>
      match inst_dict i !! name with
      | Some v => Ok (Plain v)
      | None =>
          match cls_lookup (inst_class i) name with
          | Some m => Ok (bind_to_instance i m)
          | None => Raise (AttributeError name)
          end
      end
  end.

(** [f(user_obj, context)].  A bound method runs.  A function
    [def name(self, user, context)] fetched from the class without an instance
    cannot be called with [(user_obj, context)]: Python 2 refuses [user_obj]
    as [self], Python 3 misses the third argument.  A plain value cannot be
    called at all.  Both are a [TypeError]. *)
Definition py_call (f : pyobj) (user_obj : User) (ctx : Context) : result Value :=
  match f with
  | BoundMethod f => f user_obj ctx
  | UnboundMethod _ => Raise TypeError
  | Plain _ => Raise TypeError
  end.

(** [str.lower()] on a byte string: the ASCII capitals are mapped to their
    small letters, every other byte is kept.  (On a unicode string
    [perm.lower()] also changes cased characters beyond ASCII; see
    [has_perm_with].) *)
Definition lower_ascii (c : ascii) : ascii :=
  let n := nat_of_ascii c in
  if (65 <=? n)%nat && (n <=? 90)%nat then ascii_of_nat (n + 32) else c.

Fixpoint lower (s : string) : string :=
  match s with
  | EmptyString => EmptyString
  | String c s' => String (lower_ascii c) (lower s')
  end.

(** ** The interpreter state and its monad *)

(** The backend object itself: it has the three class attributes below and no
    attribute of its own. *)
Record Backend : Type := mkBackend {
  supports_object_permissions : bool;
  supports_anonymous_user : bool;
  supports_inactive_user : bool
}.

Definition ParamRoleBackend : Backend :=
  {| supports_object_permissions := true;
     supports_anonymous_user := true;
     supports_inactive_user := true |}.

(** What a run does to the objects it is given, in order. *)
Inductive event : Type :=
  | EvGetattr (name : string)
  | EvCall.

(** The state a method of the backend runs in: the backend object ([self]) and
    the log of lookups and calls made so far. *)
Record State : Type := mkState {
  self : Backend;
  trace : list event
}.

Definition emit (e : event) (s : State) : State :=
  {| self := self s; trace := trace s ++ [e] |}.

Definition M (A : Type) : Type := State -> State * result A.

#[global] Instance M_ret : MRet M := fun A a s => (s, Ok a).

#[global] Instance M_bind : MBind M := fun A B k m s =>
  match m s with
  | (s', Ok a) => k a s'
  | (s', Raise e) => (s', Raise e)
  end.

Definition getattr (o : ModelOrInstance) (name : string) : M pyobj :=
  fun s => (emit (EvGetattr name) s, py_getattr o name).

Definition call (f : pyobj) (user_obj : User) (ctx : Context) : M Value :=
  fun s => (emit EvCall s, py_call f user_obj ctx).

(** ** ParamRoleBackend *)

(** [authenticate]: an authorization-only backend, always [None]. *)
Definition authenticate (username password : string) : M Value :=
  mret VNone.

(** [has_perm(self, user_obj, perm, obj=None)], with [perm.lower()] as a
    parameter: what it does beyond ASCII depends on the type of [perm] (byte
    string or unicode string) and on tables that are no part of the
    repository. *)
Definition has_perm_with (str_lower : string -> string) (user_obj : User)
    (perm : string) (obj : option ObjWithContext) : M Value :=
  match obj with
  | None => mret (VBool false)
  | Some obj =>
      if is_superuser user_obj then mret (VBool true)
      else if is_anonymous user_obj || negb (is_active user_obj)
      then mret (VBool false)
      else
        perm_check ← getattr (model_or_instance obj) ("can_" +:+ str_lower perm);
        call perm_check user_obj (context obj)
  end.

(** [has_perm] on byte strings. *)
Definition has_perm (user_obj : User) (perm : string)
    (obj : option ObjWithContext) : M Value :=
  has_perm_with lower user_obj perm obj.

(** The value or exception a run ends with, and the state it leaves. *)
Definition verdict {A} (r : State * result A) : result A := snd r.
Definition final {A} (r : State * result A) : State := fst r.

Definition initial : State := {| self := ParamRoleBackend; trace := [] |}.

(** Requests served one after the other by the same backend object. *)
Record Request : Type := mkRequest {
  req_user : User;
  req_perm : string;
  req_obj : option ObjWithContext
}.

Fixpoint serve (reqs : list Request) (s : State) : State :=
  match reqs with
  | [] => s
  | r :: rest => serve rest (final (has_perm (req_user r) (req_perm r) (req_obj r) s))
  end.

(** Lines 109-110 without the bookkeeping: look the check up, call it. *)
Definition perm_check_verdict (user_obj : User) (obj : ObjWithContext)
    (perm : string) : result Value :=
  match py_getattr (model_or_instance obj) ("can_" +:+ lower perm) with
  | Ok perm_check => py_call perm_check user_obj (context obj)
  | Raise e => Raise e
  end.

(** A user that passes the three guards of [has_perm]: no superuser, not
    anonymous, active. *)
Definition ordinary (u : User) : Prop :=
  is_superuser u = false /\ is_anonymous u = false /\ is_active u = true.

(** The definition of [name] that survives the execution of a class body: the
    last one in textual order. *)
Fixpoint last_def (name : string) (body : list (string * member)) : option member :=
  match body with
  | [] => None
  | d :: rest =>
      match last_def name rest with
      | Some m => Some m
      | None => if String.eqb (fst d) name then Some (snd d) else None
      end
  end.

(** Lines 109-110 for a given attribute name: look it up on the target, call
    what was found with the user and the context of the target. *)
Definition call_attribute (user_obj : User) (obj : ObjWithContext)
    (name : string) : result Value :=
  match py_getattr (model_or_instance obj) name with
  | Ok perm_check => py_call perm_check user_obj (context obj)
  | Raise e => Raise e
  end.







(** ** The wording of the specification *)

(** The principal of the specification: three flags. *)
Record Principal : Type := mkPrincipal {
  isPrivileged : bool;
  isAuthenticated : bool;
  isActive : bool
}.

Definition principal_of (u : User) : Principal :=
  {| isPrivileged := is_superuser u;
     isAuthenticated := negb (is_anonymous u);
     isActive := is_active u |}.

(** The policy gate in the words of the specification (section 4.1): four
    rules, first match wins; the fourth hands over to the resolver. *)
Definition Evaluate (resolve : ObjWithContext -> string -> result Value)
    (p : Principal) (permissionName : string)
    (target : option ObjWithContext) : result Value :=
  match target with
  | None => Ok (VBool false)
  | Some t =>
      if isPrivileged p then Ok (VBool true)
      else if negb (isAuthenticated p) || (isAuthenticated p && negb (isActive p))
      then Ok (VBool false)
      else resolve t permissionName
  end.

(** The rules of the gate that answer without the resolver. *)
Definition short_circuits (p : Principal) (target : option ObjWithContext) : bool :=
  match target with
  | None => true
  | Some _ => isPrivileged p || negb (isAuthenticated p) || negb (isActive p)
  end.


(** ** Sample users and models *)

Definition alice : User :=
  {| user_id := 1; is_superuser := false; is_anonymous := false; is_active := true |}.
Definition bob : User :=
  {| user_id := 2; is_superuser := false; is_anonymous := false; is_active := true |}.
Definition carol_inactive : User :=
  {| user_id := 3; is_superuser := false; is_anonymous := false; is_active := false |}.
Definition anonymous_user : User :=
  {| user_id := 0; is_superuser := false; is_anonymous := true; is_active := false |}.
Definition root : User :=
  {| user_id := 4; is_superuser := true; is_anonymous := false; is_active := true |}.
Definition root_inactive : User :=
  {| user_id := 5; is_superuser := true; is_anonymous := false; is_active := false |}.

(** [def can_edit(self, user, context): return context["owner"] == user.id] *)
Definition can_edit_owner (_ : InstDict) (user : User) (ctx : Context) : result Value :=
  match ctx !! "owner" with
  | Some v => Ok (VBool (value_eqb v (VInt (user_id user))))
  | None => Raise (KeyError "owner")
  end.

(** A model with a row-level EDIT permission only. *)
Definition Document : PyClass :=
  {| cls_name := "Document";
     cls_body := [("can_edit", InstanceMethod can_edit_owner)];
     cls_bases := [] |}.

Definition a_document : PyInstance :=
  {| inst_class := Document; inst_dict := {[ "title" := VStr "minutes" ]} |}.

(** A model with a table-level VIEW permission only. *)
Definition Report : PyClass :=
  {| cls_name := "Report";
     cls_body := [("can_view", ClassMethod (fun _ _ _ => Ok (VBool true)))];
     cls_bases := [] |}.

Definition a_report : PyInstance :=
  {| inst_class := Report; inst_dict := ∅ |}.

(** A model without any permission check. *)
Definition Bare : PyClass :=
  {| cls_name := "Bare"; cls_body := []; cls_bases := [] |}.

Definition owned_by (n : Z) : Context := {[ "owner" := VInt n ]}.

(** [class Summary(Report): pass]: the check is inherited. *)
Definition Summary : PyClass :=
  {| cls_name := "Summary"; cls_body := []; cls_bases := [cls_body Report] |}.





(** * Properties *)

(** ** Lower-casing *)

Lemma lower_ascii_idempotent (c : ascii) : lower_ascii (lower_ascii c) = lower_ascii c.
Proof.
  destruct c as [[] [] [] [] [] [] [] []]; reflexivity.
Qed.

Lemma lower_idempotent (s : string) : lower (lower s) = lower s.
Proof.
  induction s as [|c s IH]; simpl.
  - reflexivity.
  - now rewrite lower_ascii_idempotent, IH.
Qed.

Lemma lower_length (s : string) : String.length (lower s) = String.length s.
Proof.
  induction s as [|c s IH]; simpl; congruence.
Qed.

Example lower_view :
  lower "View" = "view" /\ lower "VIEW" = "view" /\ lower "view" = "view".
Proof. repeat split. Qed.

(** ** Class bodies *)

Lemma fold_namespace_lookup (body : list (string * member))
    (acc : gmap string member) (name : string) :
  fold_left (fun ns d => <[fst d := snd d]> ns) body acc !! name =
  match last_def name body with
  | Some m => Some m
  | None => acc !! name
  end.
Proof.
  revert acc. induction body as [|d rest IH]; intros acc; simpl.
  - reflexivity.
  - rewrite IH. destruct (last_def name rest) as [m|]; [reflexivity|].
    destruct (String.eqb_spec (fst d) name) as [->|Hne].
    + apply lookup_insert_eq.
    + rewrite lookup_insert_ne by exact Hne.
      reflexivity.
Qed.

(** The namespace of a class holds, for every name, the last definition of
    that name in the body, and nothing for a name the body does not define. *)
Lemma cls_dict_last_def (c : PyClass) (name : string) :
  cls_dict c !! name = last_def name (cls_body c).
Proof.
  unfold cls_dict, class_namespace. rewrite fold_namespace_lookup.
  destruct (last_def name (cls_body c)); [reflexivity | apply lookup_empty].
Qed.


Lemma last_def_In (name : string) (body : list (string * member)) (m : member) :
  last_def name body = Some m -> In (name, m) body.
Proof.
  induction body as [|[n m'] rest IH]; simpl; [discriminate|].
  destruct (last_def name rest) as [m0|].
  - intros H. right. apply IH. exact H.
  - destruct (String.eqb_spec n name) as [->|_]; [|discriminate].
    intros [= ->]. now left.
Qed.

Lemma last_def_None (name : string) (body : list (string * member)) :
  last_def name body = None <-> forall m, ~ In (name, m) body.
Proof.
  induction body as [|[n m'] rest IH]; simpl.
  - split; [intros _ m [] | reflexivity].
  - destruct (last_def name rest) as [m0|] eqn:E.
    + split; [discriminate|]. intros H. exfalso.
      apply (H m0). right. apply last_def_In. exact E.
    + destruct (String.eqb_spec n name) as [->|Hne].
      * split; [discriminate|]. intros H. exfalso. apply (H m'). now left.
      * split; [|reflexivity]. intros _ m [[= Hn _]|Hin]; [contradiction|].
        destruct IH as [IH _]. exact (IH eq_refl m Hin).
Qed.



(** An inherited check is found. *)
Example summary_inherits_check :
  cls_lookup Summary "can_view" = cls_lookup Report "can_view"
  /\ verdict (has_perm alice "view" (Some (mkObj (Class Summary) ∅)) initial)
     = Ok (VBool true).
Proof. split; reflexivity. Qed.

(** ** One run of [has_perm], spelled out *)

Lemma has_perm_with_run (str_lower : string -> string) (s : State) (u : User)
    (perm : string) (obj : option ObjWithContext) :
  has_perm_with str_lower u perm obj s =
  match obj with
  | None => (s, Ok (VBool false))
  | Some o =>
      if is_superuser u then (s, Ok (VBool true))
      else if is_anonymous u || negb (is_active u) then (s, Ok (VBool false))
      else
        match py_getattr (model_or_instance o) ("can_" +:+ str_lower perm) with
        | Ok perm_check =>
            (emit EvCall (emit (EvGetattr ("can_" +:+ str_lower perm)) s),
             py_call perm_check u (context o))
        | Raise e => (emit (EvGetattr ("can_" +:+ str_lower perm)) s, Raise e)
        end
  end.
Proof.
  unfold has_perm_with. destruct obj as [o|]; [|reflexivity].
  destruct (is_superuser u); [reflexivity|].
  destruct (is_anonymous u || negb (is_active u)); [reflexivity|].
  unfold mbind, M_bind, getattr, call.
  destruct (py_getattr (model_or_instance o) ("can_" +:+ str_lower perm));
    reflexivity.
Qed.

Lemma has_perm_run (s : State) (u : User) (perm : string)
    (obj : option ObjWithContext) :
  has_perm u perm obj s =
  match obj with
  | None => (s, Ok (VBool false))
  | Some o =>
      if is_superuser u then (s, Ok (VBool true))
      else if is_anonymous u || negb (is_active u) then (s, Ok (VBool false))
      else
        match py_getattr (model_or_instance o) ("can_" +:+ lower perm) with
        | Ok perm_check =>
            (emit EvCall (emit (EvGetattr ("can_" +:+ lower perm)) s),
             py_call perm_check u (context o))
        | Raise e => (emit (EvGetattr ("can_" +:+ lower perm)) s, Raise e)
        end
  end.
Proof.
  apply (has_perm_with_run lower).
Qed.

Lemma has_perm_ordinary (s : State) (u : User) (perm : string) (o : ObjWithContext) :
  ordinary u ->
  verdict (has_perm u perm (Some o) s) = perm_check_verdict u o perm.
Proof.
  intros (Hsu & Han & Hact). rewrite has_perm_run, Hsu, Han, Hact. simpl.
  unfold perm_check_verdict.
  destruct (py_getattr (model_or_instance o) ("can_" +:+ lower perm)); reflexivity.
Qed.

Lemma has_perm_keeps_self (s : State) (u : User) (perm : string)
    (obj : option ObjWithContext) :
  self (final (has_perm u perm obj s)) = self s.
Proof.
  rewrite has_perm_run. destruct obj as [o|]; [|reflexivity].
  destruct (is_superuser u); [reflexivity|].
  destruct (is_anonymous u || negb (is_active u)); [reflexivity|].
  destruct (py_getattr (model_or_instance o) ("can_" +:+ lower perm)); reflexivity.
Qed.

Lemma has_perm_verdict_any_state (s1 s2 : State) (u : User) (perm : string)
    (obj : option ObjWithContext) :
  verdict (has_perm u perm obj s1) = verdict (has_perm u perm obj s2).
Proof.
  rewrite !has_perm_run. destruct obj as [o|]; [|reflexivity].
  destruct (is_superuser u); [reflexivity|].
  destruct (is_anonymous u || negb (is_active u)); [reflexivity|].
  destruct (py_getattr (model_or_instance o) ("can_" +:+ lower perm)); reflexivity.
Qed.

Lemma serve_keeps_self (reqs : list Request) (s : State) :
  self (serve reqs s) = self s.
Proof.
  revert s. induction reqs as [|r rest IH]; intros s; simpl.
  - reflexivity.
  - rewrite IH. apply has_perm_keeps_self.
Qed.

(** ** The policy gate *)

(** C1. For every user and every request, [has_perm] answers as the
    first-match case analysis of the specification does, in that order: no
    target, false; else a superuser, true; else an anonymous or inactive user,
    false; else the outcome of the check found under ["can_" + perm.lower()]
    on the target, called with [(user_obj, obj.context)].  The first three
    rules answer without touching the target; the fourth starts with the
    lookup of that name. *)
Theorem has_perm_first_match (s : State) (u : User) (perm : string)
    (obj : option ObjWithContext) :
  verdict (has_perm u perm obj s)
    = Evaluate (perm_check_verdict u) (principal_of u) perm obj
  /\ if short_circuits (principal_of u) obj
     then final (has_perm u perm obj s) = s
     else exists rest,
       trace (final (has_perm u perm obj s))
         = (trace s ++ EvGetattr ("can_" +:+ lower perm) :: rest)%list.
Proof.
  rewrite has_perm_run. unfold Evaluate, short_circuits, principal_of; simpl.
  destruct obj as [o|]; [|split; reflexivity].
  destruct (is_superuser u); [split; reflexivity|].
  destruct (is_anonymous u), (is_active u); simpl; try (split; reflexivity).
  unfold perm_check_verdict.
  destruct (py_getattr (model_or_instance o) ("can_" +:+ lower perm)) as [chk|e];
    simpl; (split; [reflexivity|]).
  - exists [EvCall]. now rewrite <- app_assoc.
  - exists []. reflexivity.
Qed.

(** C2. A superuser is granted every permission on every target, whatever the
    permission name and the context, and the target is not even looked at: no
    lookup, no call.  This covers a target on which the lookup of the check
    would fail. *)
Theorem superuser_granted (s : State) (u : User) (perm : string)
    (o : ObjWithContext) :
  is_superuser u = true ->
  has_perm u perm (Some o) s = (s, Ok (VBool true)).
Proof.
  intros Hsu. now rewrite has_perm_run, Hsu.
Qed.

Lemma superuser_granted_witness :
  is_superuser root = true
  /\ py_getattr (Class Bare) ("can_" +:+ lower "archive")
       = Raise (AttributeError "can_archive")
  /\ has_perm root "archive" (Some (mkObj (Class Bare) ∅)) initial
       = (initial, Ok (VBool true)).
Proof.
  split; [reflexivity|]. split; [reflexivity|].
  apply (superuser_granted initial root "archive" (mkObj (Class Bare) ∅)).
  reflexivity.
Defined.

(** C3, as it is worded: every anonymous user, and every authenticated but
    inactive user, is denied on every target.  An inactive superuser is not. *)
Lemma inactive_superuser_not_denied :
  ~ (forall (s : State) (u : User) (perm : string) (obj : option ObjWithContext),
       is_anonymous u = true \/ (is_anonymous u = false /\ is_active u = false) ->
       verdict (has_perm u perm obj s) = Ok (VBool false)).
Proof.
  intros H.
  specialize (H initial root_inactive "view" (Some (mkObj (Instance a_report) ∅))).
  discriminate H. right. split; reflexivity.
Qed.

(** C3, amended. Every user who is no superuser and is anonymous, or
    authenticated but inactive, is denied for every permission and every
    target, a missing target included, and the target is not looked at. *)
Theorem unauthenticated_or_inactive_denied (s : State) (u : User) (perm : string)
    (obj : option ObjWithContext) :
  is_superuser u = false ->
  is_anonymous u = true \/ (is_anonymous u = false /\ is_active u = false) ->
  has_perm u perm obj s = (s, Ok (VBool false)).
Proof.
  intros Hsu H. rewrite has_perm_run, Hsu.
  destruct obj as [o|]; [|reflexivity].
  destruct H as [-> | [-> ->]]; reflexivity.
Qed.

Lemma unauthenticated_or_inactive_denied_witness :
  has_perm anonymous_user "view" (Some (mkObj (Instance a_report) ∅)) initial
    = (initial, Ok (VBool false))
  /\ has_perm carol_inactive "view" (Some (mkObj (Instance a_report) ∅)) initial
    = (initial, Ok (VBool false)).
Proof.
  split.
  - apply (unauthenticated_or_inactive_denied initial anonymous_user "view").
    + reflexivity.
    + left. reflexivity.
  - apply (unauthenticated_or_inactive_denied initial carol_inactive "view").
    + reflexivity.
    + right. split; reflexivity.
Defined.

(** C7. Without a target [has_perm] answers false, for every user and every
    permission name, and does nothing else: the state it leaves is the state
    it started in, so no check was looked up and none was called. *)
Theorem no_target_denied (s : State) (u : User) (perm : string) :
  has_perm u perm None s = (s, Ok (VBool false))
  /\ trace (final (has_perm u perm None s)) = trace s.
Proof.
  split; reflexivity.
Qed.

(** C9. On a present target, an anonymous or inactive user gets exactly the
    superuser flag as verdict: true for a superuser, in spite of being
    anonymous or inactive, and false for everybody else. *)
Theorem superuser_outranks_denial (s : State) (u : User) (perm : string)
    (o : ObjWithContext) :
  is_anonymous u = true \/ is_active u = false ->
  verdict (has_perm u perm (Some o) s) = Ok (VBool (is_superuser u)).
Proof.
  intros H. rewrite has_perm_run.
  destruct (is_superuser u); [reflexivity|].
  destruct H as [-> | ->]; [reflexivity|].
  now rewrite orb_true_r.
Qed.

Lemma superuser_outranks_denial_witness :
  verdict (has_perm root_inactive "view" (Some (mkObj (Class Bare) ∅)) initial)
    = Ok (VBool true)
  /\ verdict (has_perm carol_inactive "view" (Some (mkObj (Class Bare) ∅)) initial)
    = Ok (VBool false).
Proof.
  split.
  - apply (superuser_outranks_denial initial root_inactive "view"
             (mkObj (Class Bare) ∅)).
    right. reflexivity.
  - apply (superuser_outranks_denial initial carol_inactive "view"
             (mkObj (Class Bare) ∅)).
    right. reflexivity.
Defined.

(** ** The lookup of the check *)


Lemma has_perm_with_ordinary (str_lower : string -> string) (s : State) (u : User)
    (perm : string) (o : ObjWithContext) :
  ordinary u ->
  has_perm_with str_lower u perm (Some o) s
  = (match py_getattr (model_or_instance o) ("can_" +:+ str_lower perm) with
     | Ok _ => emit EvCall (emit (EvGetattr ("can_" +:+ str_lower perm)) s)
     | Raise _ => emit (EvGetattr ("can_" +:+ str_lower perm)) s
     end,
     call_attribute u o ("can_" +:+ str_lower perm)).
Proof.
  intros (Hsu & Han & Hact). rewrite has_perm_with_run, Hsu, Han, Hact. simpl.
  unfold call_attribute.
  destruct (py_getattr (model_or_instance o) ("can_" +:+ str_lower perm));
    reflexivity.
Qed.




(** C5. The permission name counts only through its lower-casing, however
    [perm.lower()] lower-cases.  For two permission names with the same
    lower-casing, every run of [has_perm] is the same, for every user and
    target; and for an ordinary user and a present target both runs look up
    exactly the one attribute named ["can_"] followed by that lower-casing,
    and their verdict is the outcome of calling what is bound to that name
    with the user and the context of the target. *)
Theorem perm_name_case_insensitive (str_lower : string -> string) (p1 p2 : string) :
  str_lower p1 = str_lower p2 ->
  (forall s u obj,
     has_perm_with str_lower u p1 obj s = has_perm_with str_lower u p2 obj s)
  /\ (forall s u o, ordinary u ->
        verdict (has_perm_with str_lower u p1 (Some o) s)
          = call_attribute u o ("can_" +:+ str_lower p1)
        /\ verdict (has_perm_with str_lower u p2 (Some o) s)
          = call_attribute u o ("can_" +:+ str_lower p1)
        /\ exists rest,
             (rest = [] \/ rest = [EvCall])
             /\ trace (final (has_perm_with str_lower u p1 (Some o) s))
                = (trace s ++ EvGetattr ("can_" +:+ str_lower p1) :: rest)%list
             /\ trace (final (has_perm_with str_lower u p2 (Some o) s))
                = (trace s ++ EvGetattr ("can_" +:+ str_lower p1) :: rest)%list).
Proof.
  intros H. split.
  - intros s u obj. now rewrite !has_perm_with_run, H.
  - intros s u o Hu.
    rewrite !(has_perm_with_ordinary str_lower s u _ o Hu), <- H.
    split; [reflexivity|]. split; [reflexivity|].
    unfold final; simpl.
    destruct (py_getattr (model_or_instance o) ("can_" +:+ str_lower p1)); simpl.
    + exists [EvCall]. split; [now right|]. now rewrite <- app_assoc.
    + exists []. split; [now left|]. split; reflexivity.
Qed.

Lemma perm_name_case_insensitive_witness :
  "can_" +:+ lower "View" = "can_view"
  /\ verdict (has_perm alice "View" (Some (mkObj (Class Report) ∅)) initial)
     = call_attribute alice (mkObj (Class Report) ∅) "can_view"
  /\ verdict (has_perm alice "VIEW" (Some (mkObj (Class Report) ∅)) initial)
     = call_attribute alice (mkObj (Class Report) ∅) "can_view"
  /\ call_attribute alice (mkObj (Class Report) ∅) "can_view" = Ok (VBool true).
Proof.
  pose proof (perm_name_case_insensitive lower "View" "VIEW" eq_refl) as [_ H].
  destruct (H initial alice (mkObj (Class Report) ∅)) as (H1 & H2 & _).
  - repeat split.
  - split; [reflexivity|]. split; [exact H1|]. split; [exact H2 | reflexivity].
Defined.

(** C6. For an ordinary user and a present target on which the lookup of
    ["can_" + perm.lower()] finds something, the verdict of [has_perm] is
    exactly what the call of the found object with [(user_obj, obj.context)]
    gives, value or exception, unchanged; so it is true exactly when the check
    says true for this user and this context. *)
Theorem check_verdict_propagated (s : State) (u : User) (perm : string)
    (o : ObjWithContext) (perm_check : pyobj) :
  ordinary u ->
  py_getattr (model_or_instance o) ("can_" +:+ lower perm) = Ok perm_check ->
  verdict (has_perm u perm (Some o) s) = py_call perm_check u (context o)
  /\ (verdict (has_perm u perm (Some o) s) = Ok (VBool true)
      <-> py_call perm_check u (context o) = Ok (VBool true)).
Proof.
  intros Hu Hget.
  assert (verdict (has_perm u perm (Some o) s) = py_call perm_check u (context o))
    as E.
  { rewrite (has_perm_ordinary s u perm o Hu). unfold perm_check_verdict.
    now rewrite Hget. }
  split; [exact E | now rewrite E].
Qed.

Lemma value_eqb_VInt (v : Value) (z : Z) : value_eqb v (VInt z) = true <-> v = VInt z.
Proof.
  destruct v; simpl; try (split; [discriminate | congruence]).
  rewrite Z.eqb_eq. split; congruence.
Qed.

(** The end-to-end scenario: editing a document is granted to an ordinary user
    exactly when the context names that user as owner. *)
Lemma document_edit_end_to_end (s : State) (u : User) (ctx : Context) :
  ordinary u ->
  verdict (has_perm u "edit" (Some (mkObj (Instance a_document) ctx)) s)
    = Ok (VBool true)
  <-> ctx !! "owner" = Some (VInt (user_id u)).
Proof.
  intros Hu. rewrite (has_perm_ordinary s u "edit" _ Hu).
  change (can_edit_owner (inst_dict a_document) u ctx = Ok (VBool true)
          <-> ctx !! "owner" = Some (VInt (user_id u))).
  unfold can_edit_owner. destruct (ctx !! "owner") as [v|].
  - split.
    + intros [= H]. apply value_eqb_VInt in H. now rewrite H.
    + intros [= ->]. simpl. now rewrite Z.eqb_refl.
  - split; discriminate.
Qed.

Lemma check_verdict_propagated_witness :
  verdict (has_perm alice "Edit"
             (Some (mkObj (Instance a_document) (owned_by 1))) initial)
    = can_edit_owner (inst_dict a_document) alice (owned_by 1).
Proof.
  pose proof (check_verdict_propagated initial alice "Edit"
                (mkObj (Instance a_document) (owned_by 1))
                (BoundMethod (can_edit_owner (inst_dict a_document)))) as H.
  destruct H as [H _].
  - repeat split.
  - reflexivity.
  - exact H.
Defined.

(** ** Class targets and instance targets *)

(** A model whose body defines [can_create] twice: first as an instance method
    that denies, then as a class method that grants. *)
Definition Album : PyClass :=
  {| cls_name := "Album";
     cls_body := [("can_create", InstanceMethod (fun _ _ _ => Ok (VBool false)));
                  ("can_create", ClassMethod (fun _ _ _ => Ok (VBool true)))];
     cls_bases := [] |}.

Definition an_album : PyInstance :=
  {| inst_class := Album; inst_dict := ∅ |}.

(** Two definitions under one name in a body do not make two members: the
    later one replaces the earlier one, here for both kinds of target. *)
Example album_instance_gets_class_method :
  verdict (has_perm alice "create" (Some (mkObj (Class Album) ∅)) initial)
    = Ok (VBool true)
  /\ verdict (has_perm alice "create" (Some (mkObj (Instance an_album) ∅)) initial)
    = Ok (VBool true).
Proof. split; reflexivity. Qed.



(** ** Determinism and absence of state *)

(** C10, as it is worded: two runs with equal user flags, the same target,
    context and permission name, and the same checks, give the same verdict.
    The check receives the user itself, so two users with equal flags can get
    different verdicts. *)
Lemma verdict_depends_on_user_identity :
  ~ (forall (s1 s2 : State) (u1 u2 : User) (perm : string)
            (obj : option ObjWithContext),
       is_superuser u1 = is_superuser u2 ->
       is_anonymous u1 = is_anonymous u2 ->
       is_active u1 = is_active u2 ->
       verdict (has_perm u1 perm obj s1) = verdict (has_perm u2 perm obj s2)).
Proof.
  intros H.
  specialize (H initial initial alice bob "edit"
                (Some (mkObj (Instance a_document) (owned_by 1)))
                eq_refl eq_refl eq_refl).
  discriminate H.
Qed.

(** C10, amended. Two runs with the same user (flags and identity), the same
    target, context and permission name give the same verdict, whatever state
    each starts in; a run leaves the backend object as it found it; hence the
    verdict of a request is the same after any sequence of earlier requests
    served by the same backend. *)
Theorem has_perm_stateless (s1 s2 : State) (u : User) (perm : string)
    (obj : option ObjWithContext) (history : list Request) :
  verdict (has_perm u perm obj s1) = verdict (has_perm u perm obj s2)
  /\ self (final (has_perm u perm obj s1)) = self s1
  /\ self (serve history s1) = self s1
  /\ verdict (has_perm u perm obj (serve history s1))
     = verdict (has_perm u perm obj s1).
Proof.
  repeat split.
  - apply has_perm_verdict_any_state.
  - apply has_perm_keeps_self.
  - apply serve_keeps_self.
  - apply has_perm_verdict_any_state.
Qed.

(** * Further properties of the backend *)

(** ** Definitions *)

(** The lookups and calls one run of [has_perm] makes, read off its four
    branches. *)
Definition request_events (user_obj : User) (perm : string)
    (obj : option ObjWithContext) : list event :=
  match obj with
  | None => []
  | Some obj =>
      if is_superuser user_obj then []
      else if is_anonymous user_obj || negb (is_active user_obj) then []
      else
        match py_getattr (model_or_instance obj) ("can_" +:+ lower perm) with
        | Ok _ => [EvGetattr ("can_" +:+ lower perm); EvCall]
        | Raise _ => [EvGetattr ("can_" +:+ lower perm)]
        end
  end.

(** The two methods of the backend, as calls a client can make. *)
Inductive BackendCall : Type :=
  | CallAuthenticate (username password : string)
  | CallHasPerm (user_obj : User) (perm : string) (obj : option ObjWithContext).

Definition run_call (c : BackendCall) (s : State) : State :=
  match c with
  | CallAuthenticate username password => final (authenticate username password s)
  | CallHasPerm user_obj perm obj => final (has_perm user_obj perm obj s)
  end.

Fixpoint run_calls (calls : list BackendCall) (s : State) : State :=
  match calls with
  | [] => s
  | c :: rest => run_calls rest (run_call c s)
  end.

(** The bytes [str.lower()] changes. *)
Definition is_capital (c : ascii) : bool :=
  let n := nat_of_ascii c in (65 <=? n)%nat && (n <=? 90)%nat.

Fixpoint has_capital (s : string) : bool :=
  match s with
  | EmptyString => false
  | String c s' => is_capital c || has_capital s'
  end.


(** A model with a field that is named like a check. *)
Definition Ticket : PyClass :=
  {| cls_name := "Ticket";
     cls_body := [("can_close", InstanceMethod (fun _ _ _ => Ok (VBool true)))];
     cls_bases := [] |}.

Definition a_ticket : PyInstance :=
  {| inst_class := Ticket; inst_dict := {[ "can_close" := VBool true ]} |}.

(** ** Auxiliary lemmas *)

Lemma has_perm_trace (s : State) (u : User) (perm : string)
    (obj : option ObjWithContext) :
  trace (final (has_perm u perm obj s))
    = (trace s ++ request_events u perm obj)%list.
Proof.
  rewrite has_perm_run. unfold request_events.
  destruct obj as [o|]; [|symmetry; apply app_nil_r].
  destruct (is_superuser u); [symmetry; apply app_nil_r|].
  destruct (is_anonymous u || negb (is_active u)); [symmetry; apply app_nil_r|].
  destruct (py_getattr (model_or_instance o) ("can_" +:+ lower perm)); simpl.
  - now rewrite <- app_assoc.
  - reflexivity.
Qed.

Lemma lower_ascii_not_capital (c : ascii) : is_capital (lower_ascii c) = false.
Proof.
  destruct c as [[] [] [] [] [] [] [] []]; reflexivity.
Qed.

Lemma lower_no_capital (s : string) : has_capital (lower s) = false.
Proof.
  induction s as [|c s IH]; simpl.
  - reflexivity.
  - now rewrite lower_ascii_not_capital, IH.
Qed.

Lemma check_name_no_capital (perm : string) :
  has_capital ("can_" +:+ lower perm) = false.
Proof.
  change (has_capital ("can_" +:+ lower perm)) with (has_capital (lower perm)).
  apply lower_no_capital.
Qed.



Lemma run_calls_keeps_self (calls : list BackendCall) (s : State) :
  self (run_calls calls s) = self s.
Proof.
  revert s. induction calls as [|c rest IH]; intros s; simpl.
  - reflexivity.
  - rewrite IH. destruct c; simpl; [reflexivity | apply has_perm_keeps_self].
Qed.


Lemma request_events_length (u : User) (perm : string) (obj : option ObjWithContext) :
  (length (request_events u perm obj) <= 2)%nat.
Proof.
  unfold request_events. destruct obj as [o|]; simpl; [|lia].
  destruct (is_superuser u); simpl; [lia|].
  destruct (is_anonymous u || negb (is_active u)); simpl; [lia|].
  destruct (py_getattr (model_or_instance o) ("can_" +:+ lower perm)); simpl; lia.
Qed.

(** A model whose only check has a capital in its name. *)
Definition Memo : PyClass :=
  {| cls_name := "Memo";
     cls_body := [("can_View", ClassMethod (fun _ _ _ => Ok (VBool true)))];
     cls_bases := [] |}.

Definition call_events (c : BackendCall) : list event :=
  match c with
  | CallAuthenticate _ _ => []
  | CallHasPerm user_obj perm obj => request_events user_obj perm obj
  end.

(** ** Where failures and grants come from *)



(** X2. [has_perm] grants only to a superuser or on the word of a check: if a
    run ends with [True], then there is a target, and either the user is a
    superuser, or the user is no superuser, not anonymous and active and the
    object found under ["can_" + perm.lower()] returned [True] when called
    with this user and the context of the target. *)
Theorem grant_comes_from_superuser_or_check (s : State) (u : User) (perm : string)
    (obj : option ObjWithContext) :
  verdict (has_perm u perm obj s) = Ok (VBool true) ->
  exists o, obj = Some o
    /\ (is_superuser u = true
        \/ (ordinary u
            /\ exists perm_check,
                 py_getattr (model_or_instance o) ("can_" +:+ lower perm)
                   = Ok perm_check
                 /\ py_call perm_check u (context o) = Ok (VBool true))).
Proof.
  rewrite has_perm_run. destruct obj as [o|]; [|discriminate].
  destruct (is_superuser u) eqn:Hsu.
  { intros _. exists o. split; [reflexivity | now left]. }
  destruct (is_anonymous u) eqn:Han; [discriminate|].
  destruct (is_active u) eqn:Hact; [|discriminate]. simpl.
  destruct (py_getattr (model_or_instance o) ("can_" +:+ lower perm))
    as [chk|e'] eqn:Hget; simpl; intros H; [|discriminate].
  exists o. split; [reflexivity|]. right. split; [repeat split; assumption|].
  exists chk. now split.
Qed.

Lemma grant_comes_from_superuser_or_check_witness :
  exists o, Some (mkObj (Instance a_document) (owned_by 1)) = Some o
    /\ (is_superuser alice = true
        \/ (ordinary alice
            /\ exists perm_check,
                 py_getattr (model_or_instance o) ("can_" +:+ lower "edit")
                   = Ok perm_check
                 /\ py_call perm_check alice (context o) = Ok (VBool true))).
Proof.
  apply (grant_comes_from_superuser_or_check initial alice "edit"
           (Some (mkObj (Instance a_document) (owned_by 1)))).
  reflexivity.
Defined.

(** ** Lookups and calls *)

(** X3. One run of [has_perm] adds to the log nothing, or one lookup of
    ["can_" + perm.lower()], or that lookup followed by one call; and a call
    is made exactly when there is a target, the user is no superuser, not
    anonymous and active, and the lookup found something. *)
Theorem check_called_at_most_once (s : State) (u : User) (perm : string)
    (obj : option ObjWithContext) :
  exists t,
    trace (final (has_perm u perm obj s)) = (trace s ++ t)%list
    /\ (t = [] \/ t = [EvGetattr ("can_" +:+ lower perm)]
        \/ t = [EvGetattr ("can_" +:+ lower perm); EvCall])
    /\ (In EvCall t <->
        exists o perm_check,
          obj = Some o /\ ordinary u
          /\ py_getattr (model_or_instance o) ("can_" +:+ lower perm) = Ok perm_check).
Proof.
  exists (request_events u perm obj). split; [apply has_perm_trace|].
  unfold request_events, ordinary.
  destruct obj as [o|].
  2:{ split; [now left|]. split; [intros [] | intros (o & c & H & _); discriminate]. }
  destruct (is_superuser u).
  { split; [now left|]. split; [intros [] | intros (? & ? & _ & (H & _) & _); discriminate]. }
  destruct (is_anonymous u); simpl.
  { split; [now left|].
    split; [intros [] | intros (? & ? & _ & (_ & H & _) & _); discriminate]. }
  destruct (is_active u); simpl.
  2:{ split; [now left|].
      split; [intros [] | intros (? & ? & _ & (_ & _ & H) & _); discriminate]. }
  destruct (py_getattr (model_or_instance o) ("can_" +:+ lower perm))
    as [chk|e] eqn:Hget.
  - split; [now right; right|]. split.
    + intros _. exists o, chk. split; [reflexivity|]. split; [|exact Hget].
      repeat split.
    + intros _. right. now left.
  - split; [now right; left|]. split.
    + intros [H|[]]. discriminate H.
    + intros (o' & c & [= <-] & _ & H). rewrite Hget in H. discriminate H.
Qed.

(** X4. An own attribute of an instance (a field value) named like the check
    hides the method of the class: for a user who is no superuser, not
    anonymous and active, [has_perm] finds the field value, tries to call it
    and ends with a [TypeError], whatever the class defines under that name. *)
Theorem own_attribute_hides_check (s : State) (u : User) (perm : string)
    (i : PyInstance) (ctx : Context) (v : Value) :
  ordinary u ->
  inst_dict i !! ("can_" +:+ lower perm) = Some v ->
  has_perm u perm (Some (mkObj (Instance i) ctx)) s
    = (emit EvCall (emit (EvGetattr ("can_" +:+ lower perm)) s), Raise TypeError).
Proof.
  intros (Hsu & Han & Hact) Hown.
  rewrite has_perm_run, Hsu, Han, Hact. simpl. now rewrite Hown.
Qed.

Lemma own_attribute_hides_check_witness :
  last_def "can_close" (cls_body Ticket)
    = Some (InstanceMethod (fun _ _ _ => Ok (VBool true)))
  /\ verdict (has_perm alice "close" (Some (mkObj (Instance a_ticket) ∅)) initial)
     = Raise TypeError.
Proof.
  split; [reflexivity|].
  rewrite (own_attribute_hides_check initial alice "close" a_ticket ∅ (VBool true)).
  - reflexivity.
  - repeat split.
  - reflexivity.
Defined.

(** ** The name of the check *)

(** X6. A member whose name contains an ASCII capital is out of reach: no
    permission name makes [has_perm] look it up, since the name looked up is
    lower-cased throughout. *)
Theorem capital_named_check_unreachable (s : State) (u : User) (perm : string)
    (obj : option ObjWithContext) (name : string) :
  has_capital name = true ->
  ~ In (EvGetattr name) (trace s) ->
  "can_" +:+ lower perm <> name
  /\ ~ In (EvGetattr name) (trace (final (has_perm u perm obj s))).
Proof.
  intros Hcap Hold.
  assert ("can_" +:+ lower perm <> name) as Hne.
  { intros <-. rewrite check_name_no_capital in Hcap. discriminate. }
  split; [exact Hne|].
  rewrite has_perm_trace. intros Hin. apply in_app_or in Hin as [Hin|Hin].
  - exact (Hold Hin).
  - unfold request_events in Hin.
    destruct obj as [o|]; [|exact Hin].
    destruct (is_superuser u); [exact Hin|].
    destruct (is_anonymous u || negb (is_active u)); [exact Hin|].
    destruct (py_getattr (model_or_instance o) ("can_" +:+ lower perm));
      simpl in Hin.
    + destruct Hin as [[= H]|[H|[]]]; [exact (Hne H) | discriminate H].
    + destruct Hin as [[= H]|[]]. exact (Hne H).
Qed.

Lemma capital_named_check_unreachable_witness :
  last_def "can_View" (cls_body Memo)
    = Some (ClassMethod (fun _ _ _ => Ok (VBool true)))
  /\ "can_" +:+ lower "View" <> "can_View"
  /\ ~ In (EvGetattr "can_View")
       (trace (final (has_perm alice "View" (Some (mkObj (Class Memo) ∅)) initial))).
Proof.
  split; [reflexivity|].
  apply (capital_named_check_unreachable initial alice "View"
           (Some (mkObj (Class Memo) ∅)) "can_View").
  - reflexivity.
  - simpl. intros [].
Defined.



(** ** Sequences of calls to the backend *)

(** X8. [authenticate] answers [None] for every user name and password in
    every state the backend can be in, and calls of [authenticate] and
    [has_perm] made before, in any number and order, change neither the
    verdict of a later [has_perm] nor the backend object. *)
Theorem earlier_calls_irrelevant (calls : list BackendCall) (s : State)
    (u : User) (perm : string) (obj : option ObjWithContext)
    (username password : string) :
  verdict (has_perm u perm obj (run_calls calls s)) = verdict (has_perm u perm obj s)
  /\ authenticate username password (run_calls calls s)
     = (run_calls calls s, Ok VNone)
  /\ self (run_calls calls s) = self s.
Proof.
  split; [apply has_perm_verdict_any_state|].
  split; [reflexivity | apply run_calls_keeps_self].
Qed.

(** X9. The lookups and calls of a sequence of backend calls are those of each
    call taken alone, one after the other: [authenticate] adds none, a
    [has_perm] adds its own whatever was done before; so a sequence adds at
    most two entries per call to the log. *)
Theorem calls_compose (calls : list BackendCall) (s : State) :
  trace (run_calls calls s) = (trace s ++ flat_map call_events calls)%list
  /\ (length (trace (run_calls calls s)) <= length (trace s) + 2 * length calls)%nat.
Proof.
  assert (forall cs s0,
            trace (run_calls cs s0) = (trace s0 ++ flat_map call_events cs)%list)
    as Htrace.
  { induction cs as [|c rest IH]; intros s0; simpl.
    - symmetry. apply app_nil_r.
    - rewrite IH, app_assoc. f_equal.
      destruct c; simpl; [symmetry; apply app_nil_r | apply has_perm_trace]. }
  split; [apply Htrace|].
  rewrite Htrace, length_app. apply Nat.add_le_mono_l.
  clear. induction calls as [|c rest IH]; simpl; [lia|].
  rewrite length_app.
  assert (length (call_events c) <= 2)%nat as Hc.
  { destruct c; simpl; [lia | apply request_events_length]. }
  lia.
Qed.
